(** * Pc-Parts chat front-end: a verified model of [src/pages/app.py]

    The program is one Flask module.  Its module body checks that the model
    weights file exists, builds one [Llama] session and registers two routes;
    the [chat] view wraps the trimmed user message in the Llama-2 instruction
    delimiters, calls the session once and returns the trimmed first choice.

    The embedding below follows the source statement by statement.  Python
    values are an inductive type, [str] is a sequence of code points, a
    [dict] is a finite map.  Everything outside the module (the file system,
    [os.cpu_count], the [llama_cpp] engine, the template renderer) is an
    interface the development is parametric in; view functions live in a
    small monad that threads the interpreter state, records each call that
    reaches the engine and propagates exceptions. *)

From Stdlib Require Import ZArith NArith String Ascii List Bool.
From Corelib Require Import SpecFloat.
From stdpp Require Import base option list gmap fin_maps.

Local Open Scope Z_scope.

(** ** Python strings *)

Module PyStr.

(** A [str] is a sequence of Unicode code points. *)
Definition char := N.
Definition str := list char.

(** A source literal; only used on ASCII text. *)
Definition lit (s : string) : str :=
  map N_of_ascii (list_ascii_of_string s).

(** [str.isspace] on one code point: the characters CPython's
    [Py_UNICODE_ISSPACE] accepts (bidirectional type WS, B or S, or
    category Zs). *)
Definition isspace (c : char) : bool :=
  ((9 <=? c) && (c <=? 13) || (28 <=? c) && (c <=? 32)
   || (c =? 133) || (c =? 160) || (c =? 5760)
   || (8192 <=? c) && (c <=? 8202)
   || (c =? 8232) || (c =? 8233) || (c =? 8239) || (c =? 8287)
   || (c =? 12288))%N.

(** [s.lstrip()], [s.rstrip()] and [s.strip()] without argument: the
    scan from the left, then the scan from the right, of [do_strip]. *)
Fixpoint lstrip (s : str) : str :=
  match s with
  | c :: s' => if isspace c then lstrip s' else s
  | [] => []
  end.

Definition rstrip (s : str) : str := rev (lstrip (rev s)).

Definition strip (s : str) : str := rstrip (lstrip s).

(** Truth value of a [str]: the empty string is the only false one. *)
Definition nonempty (s : str) : bool :=
  match s with [] => false | _ :: _ => true end.

(** Every character of [s] is white space. *)
Definition blank (s : str) : bool := forallb isspace s.

(** The specification's words for trimming: [t] is [s] with its leading
    and trailing white space removed, that is, [s] is [t] between two
    runs of white space and [t] neither starts nor ends with any. *)
Definition Trimmed (s t : str) : Prop :=
  exists pre post,
    s = pre ++ t ++ post /\ blank pre = true /\ blank post = true /\
    (forall c, head t = Some c -> isspace c = false) /\
    (forall c, last t = Some c -> isspace c = false).

End PyStr.

Import PyStr.

(** ** Python values as [json.loads] produces them *)

#[warnings="-register-all"]
Inductive value : Type :=
  | VNone
  | VBool (b : bool)
  | VInt (n : Z)
  | VFloat (x : spec_float)
  | VStr (s : str)
  | VList (l : list value)
  | VDict (d : gmap str value).

Definition float_nonzero (x : spec_float) : bool :=
  match x with S754_zero _ => false | _ => true end.

(** [bool(v)] *)
Definition truthy (v : value) : bool :=
  match v with
  | VNone => false
  | VBool b => b
  | VInt n => negb (n =? 0)
  | VFloat x => float_nonzero x
  | VStr s => nonempty s
  | VList l => match l with [] => false | _ :: _ => true end
  | VDict d => negb (bool_decide (d = ∅))
  end.

(** [a or b] on values (the right operand has no effect of its own here). *)
Definition py_or (a b : value) : value := if truthy a then a else b.

(** [type(v).__name__], as it appears in an [AttributeError]. *)
Definition type_name (v : value) : str :=
  match v with
  | VNone => lit "NoneType"
  | VBool _ => lit "bool"
  | VInt _ => lit "int"
  | VFloat _ => lit "float"
  | VStr _ => lit "str"
  | VList _ => lit "list"
  | VDict _ => lit "dict"
  end.

(** ** Objects of the libraries the module uses *)

(** The keyword arguments of [Llama(...)]; the session object is modelled by
    the arguments it was built from. *)
Record Llama : Type := mkLlama {
  model_path : str;
  n_ctx : Z;
  temperature : spec_float;
  verbose : bool;
  n_threads : option Z
}.

(** The keyword arguments of one call [llm(...)]. *)
Record CompletionArgs : Type := mkArgs {
  prompt : str;
  max_tokens : Z;
  stop : list str
}.

(** What a call returns: [resp['choices'][i]['text']]. *)
Record Choice : Type := mkChoice { text : str }.
Record Completion : Type := mkCompletion { choices : list Choice }.

(** The value bound to [sys.stdout] or [sys.stderr]. *)
Inductive stream : Type := ProcessStdout | ProcessStderr | StringIO.

(** An exception raised inside [llama_cpp]: its class and message. *)
Record Fault : Type := mkFault { exc_class : str; exc_message : str }.

Inductive exn : Type :=
  | FileNotFoundError (path : str)
      (* message: "Cannot find model at " + repr(path) *)
  | NameError (name : str)
  | AttributeError (type attr : str)
      (* 'type' object has no attribute 'attr' *)
  | IndexError
  | HTTPException (code : Z)
      (* werkzeug: BadRequest, UnsupportedMediaType, NotFound, ... *)
  | TemplateNotFound (name : str)
  | EngineError (f : Fault).
      (* anything raised inside llama_cpp *)

Inductive method : Type := GET | POST.

(** The part of [flask.request] the views read; [get_json] is the outcome
    of [request.get_json()]. *)
Record Request : Type := mkRequest {
  req_method : method;
  req_path : str;
  get_json : exn + value
}.

Inductive body : Type :=
  | Json (v : value)
  | Html (page : str)
  | ErrorPage.

Record Response : Type := mkResponse { status : Z; content : body }.

(** Effects that leave the module. *)
Inductive event : Type :=
  | Load (args : Llama)
  | Generate (session : Llama) (args : CompletionArgs)
  | Print (out : stream) (line : str)
  | Serve (host : str) (port : Z) (debug : bool).

(** ** The world outside the module *)

Class External (world : Type) : Type := {
  (** [__file__] and the [os.path] functions the module calls *)
  module_file : str;
  os_path_dirname : str -> str;
  os_path_join : str -> list str -> str;
  os_path_exists : world -> str -> bool;
  os_cpu_count : world -> option Z;
  (** [Llama.__init__]: [Some e] when loading fails *)
  llama_init : Llama -> world -> world * option Fault;
  (** [Llama.__call__] *)
  llama_call : Llama -> CompletionArgs -> world -> world * (Fault + Completion);
  (** [flask.render_template]: [None] when the template is missing *)
  render_template : str -> world -> option str
}.

(** ** Interpreter state and the monad of module code *)

Section Interpreter.

Context {world : Type}.

(** What a view can read or assign: the two [sys] streams, the module
    global [llm] (unbound until the module body assigns it) and the
    world outside. *)
Record State : Type := mkState {
  sys_stdout : stream;
  sys_stderr : stream;
  llm : option Llama;
  ext : world
}.

(** One run: the events emitted, the state left behind, and either the
    exception that escaped or the value returned. *)
Record Run (A : Type) : Type := mkRun {
  trace : list event;
  final : State;
  result : exn + A
}.
Global Arguments mkRun {A} _ _ _.
Global Arguments trace {A} _.
Global Arguments final {A} _.
Global Arguments result {A} _.

Definition M (A : Type) : Type := State -> Run A.

Definition ret {A} (a : A) : M A := fun st => mkRun [] st (inr a).

Definition raise {A} (e : exn) : M A := fun st => mkRun [] st (inl e).

Definition bind {A B} (m : M A) (k : A -> M B) : M B := fun st =>
  match m st with
  | mkRun tr st' (inl e) => mkRun tr st' (inl e)
  | mkRun tr st' (inr a) =>
      match k a st' with
      | mkRun tr' st'' r => mkRun (tr ++ tr') st'' r
      end
  end.

Definition emit (ev : event) : M unit := fun st => mkRun [ev] st (inr tt).

Definition get_state : M State := fun st => mkRun [] st (inr st).

Definition put_state (st' : State) : M unit := fun _ => mkRun [] st' (inr tt).

End Interpreter.

Arguments State : clear implicits.
Arguments Run : clear implicits.
Arguments M : clear implicits.

Global Instance M_ret {world} : MRet (M world) := @ret world.
Global Instance M_bind {world} : MBind (M world) :=
  fun A B k m => bind m k.

(** ** The module [app.py] *)

Section App.

Context {world : Type} {E : External world}.

Local Abbreviation PyM := (M world).

(** *** Library calls, as operations of the monad *)

Definition exists_ (p : str) : PyM bool :=
  st ← get_state; mret (os_path_exists (ext st) p).

Definition cpu_count : PyM (option Z) :=
  st ← get_state; mret (os_cpu_count (ext st)).

Definition set_stdout (s : stream) : PyM unit :=
  st ← get_state;
  put_state (mkState s (sys_stderr st) (llm st) (ext st)).

Definition set_stderr (s : stream) : PyM unit :=
  st ← get_state;
  put_state (mkState (sys_stdout st) s (llm st) (ext st)).

Definition set_llm (l : Llama) : PyM unit :=
  st ← get_state;
  put_state (mkState (sys_stdout st) (sys_stderr st) (Some l) (ext st)).

Definition set_ext (w : world) : PyM unit :=
  st ← get_state;
  put_state (mkState (sys_stdout st) (sys_stderr st) (llm st) w).

(** Reading the global [llm]. *)
Definition get_llm : PyM Llama :=
  st ← get_state;
  match llm st with
  | Some l => mret l
  | None => raise (NameError (lit "llm"))
  end.

(** [Llama(...)] with keyword arguments [args] *)
Definition Llama_new (args : Llama) : PyM Llama :=
  emit (Load args);;
  st ← get_state;
  let '(w, r) := llama_init args (ext st) in
  set_ext w;;
  match r with
  | Some f => raise (EngineError f)
  | None => mret args
  end.

(** [l(...)] with keyword arguments [args] *)
Definition Llama_call (l : Llama) (args : CompletionArgs) : PyM Completion :=
  emit (Generate l args);;
  st ← get_state;
  let '(w, r) := llama_call l args (ext st) in
  set_ext w;;
  match r with
  | inl f => raise (EngineError f)
  | inr c => mret c
  end.

Definition print (line : str) : PyM unit :=
  st ← get_state; emit (Print (sys_stdout st) line).

(** [jsonify(reply=r)] *)
Definition jsonify_reply (r : str) : Response :=
  mkResponse 200 (Json (VDict {[ lit "reply" := VStr r ]})).

(** *** Lines 7-25: paths and model set-up *)

Definition HERE : str := os_path_dirname module_file.

Definition MODEL_PATH : str :=
  os_path_join HERE [lit "models"; lit "llama-2-7b-chat.Q4_K_M.gguf"].

(** The literal [0.7] as a binary64 number. *)
Definition float_0_7 : spec_float :=
  S754_finite false 6305039478318694 (-53).

Definition module_body : PyM unit :=
  found ← exists_ MODEL_PATH;
  (if negb found then raise (FileNotFoundError MODEL_PATH) else mret tt);;
  st ← get_state;
  let _saved_stdout := sys_stdout st in
  let _saved_stderr := sys_stderr st in
  set_stdout StringIO;;
  set_stderr StringIO;;
  n ← cpu_count;
  l ← Llama_new {| model_path := MODEL_PATH;
                   n_ctx := 2048;
                   temperature := float_0_7;
                   verbose := false;
                   n_threads := n |};
  set_llm l;;
  set_stdout _saved_stdout;;
  set_stderr _saved_stderr.

(** *** Lines 30-32: [index] *)

Definition index : PyM Response :=
  st ← get_state;
  match render_template (lit "chat.html") (ext st) with
  | Some page => mret (mkResponse 200 (Html page))
  | None => raise (TemplateNotFound (lit "chat.html"))
  end.

(** *** Lines 34-49: [chat] *)

(** [data.get('message', '')]: only a [dict] has the attribute. *)
Definition get_message (data : value) : PyM value :=
  match data with
  | VDict d => mret (default (VStr []) (d !! lit "message"))
  | _ => raise (AttributeError (type_name data) (lit "get"))
  end.

(** [v.strip()]: only a [str] has the attribute. *)
Definition call_strip (v : value) : PyM str :=
  match v with
  | VStr s => mret (strip s)
  | _ => raise (AttributeError (type_name v) (lit "strip"))
  end.

(** [resp['choices'][0]['text']] *)
Definition first_choice_text (resp : Completion) : PyM str :=
  match choices resp with
  | c :: _ => mret (text c)
  | [] => raise IndexError
  end.

Definition chat (request : Request) : PyM Response :=
  parsed ← (match get_json request with
            | inl e => raise e
            | inr v => mret v
            end);
  let data := py_or parsed (VDict ∅) in
  raw ← get_message data;
  user_msg ← call_strip raw;
  if negb (nonempty user_msg) then mret (jsonify_reply [])
  else
    let inst := lit "[INST] " ++ user_msg ++ lit " [/INST]" in
    l ← get_llm;
    resp ← Llama_call l {| prompt := inst;
                           max_tokens := 256;
                           stop := [lit "[/INST]"] |};
    t ← first_choice_text resp;
    let reply := strip t in
    mret (jsonify_reply reply).

(** *** Lines 28-34 and 51-56: the route table and the server *)

(** URL matching against the two registered rules. *)
Definition view_for (request : Request) : PyM Response :=
  if bool_decide (req_path request = lit "/") then
    match req_method request with
    | GET => index
    | POST => raise (HTTPException 405)
    end
  else if bool_decide (req_path request = lit "/chat") then
    match req_method request with
    | POST => chat request
    | GET => raise (HTTPException 405)
    end
  else raise (HTTPException 404).

(** What Flask answers when an exception leaves a view: the exception's
    own status for an [HTTPException], the generic 500 otherwise. *)
Definition handle_exception (e : exn) : Response :=
  match e with
  | HTTPException code => mkResponse code ErrorPage
  | _ => mkResponse 500 ErrorPage
  end.

Definition full_dispatch_request (request : Request) : PyM Response :=
  fun st =>
    let r := view_for request st in
    match result r with
    | inl e => mkRun (trace r) (final r) (inr (handle_exception e))
    | inr _ => r
    end.

(** The development server answers the requests one after the other. *)
Fixpoint serve (incoming : list Request) : PyM (list Response) :=
  match incoming with
  | [] => mret []
  | request :: rest =>
      resp ← full_dispatch_request request;
      resps ← serve rest;
      mret (resp :: resps)
  end.

(** [app.run(host=host, port=port, debug=debug)] *)
Definition app_run (host : str) (port : Z) (debug : bool)
    (incoming : list Request) : PyM (list Response) :=
  emit (Serve host port debug);;
  serve incoming.

(** The whole process: the module body, then lines 51-56 when the
    module runs as a script ([__name__]), fed the requests that arrive. *)
Definition main (name : str) (incoming : list Request)
    : PyM (list Response) :=
  module_body;;
  if bool_decide (name = lit "__main__") then
    let host := lit "127.0.0.1" in
    let port := 8080 in
    print (lit "Starting server on http://127.0.0.1:8080/");;
    app_run host port true incoming
  else mret [].

End App.

(** ** A test double for the world outside *)

Module Stub.

(** The stub's world counts the calls that reached the engine. *)
Definition world := nat.

Section Stub.

Variable model_present : bool.
Variable answer : Fault + Completion.

Definition external : External world := {|
  module_file := lit "/srv/pages/app.py";
  os_path_dirname := fun _ => lit "/srv/pages";
  os_path_join := fun a ps =>
    fold_left (fun acc p => acc ++ lit "/" ++ p) ps a;
  os_path_exists := fun _ _ => model_present;
  os_cpu_count := fun _ => Some 4;
  llama_init := fun _ w => (w, None);
  llama_call := fun _ _ w => (S w, answer);
  render_template := fun _ _ => Some (lit "<html></html>")
|}.

End Stub.

Definition says (t : string) : Fault + Completion :=
  inr (mkCompletion [mkChoice (lit t)]).

Definition fails : Fault + Completion :=
  inl (mkFault (lit "RuntimeError") (lit "llama_decode returned 1")).

Definition boot : State world :=
  mkState ProcessStdout ProcessStderr None 0%nat.

(** The state a successful start leaves behind. *)
Definition ready : State world :=
  mkState ProcessStdout ProcessStderr
    (Some (mkLlama
             (lit "/srv/pages/models/llama-2-7b-chat.Q4_K_M.gguf")
             2048 float_0_7 false (Some 4)))
    0%nat.

Definition post (v : value) : Request :=
  mkRequest POST (lit "/chat") (inr v).

Definition message (m : string) : value :=
  VDict {[ lit "message" := VStr (lit m) ]}.

End Stub.

(** ** A second test double: the weights file is there but does not load *)

Module Broken.

Definition load_fault : Fault :=
  mkFault (lit "ValueError") (lit "Failed to load model from file").

(** Loading fails, and the chat template is missing too. *)
Definition external : External Stub.world := {|
  module_file := lit "/srv/pages/app.py";
  os_path_dirname := fun _ => lit "/srv/pages";
  os_path_join := fun a ps =>
    fold_left (fun acc p => acc ++ lit "/" ++ p) ps a;
  os_path_exists := fun _ _ => true;
  os_cpu_count := fun _ => None;
  llama_init := fun _ w => (w, Some load_fault);
  llama_call := fun _ _ w => (S w, inr (mkCompletion []));
  render_template := fun _ _ => None
|}.

End Broken.

(** ** Names used in the statements *)

(** The line the script prints before it serves. *)
Definition banner : str := lit "Starting server on http://127.0.0.1:8080/".

(** The keyword arguments [chat] passes for the trimmed message
    [user_msg]. *)
Definition chat_args (user_msg : str) : CompletionArgs :=
  {| prompt := lit "[INST] " ++ user_msg ++ lit " [/INST]";
     max_tokens := 256;
     stop := [lit "[/INST]"] |}.

(** The state once a library call has moved the world to [w]. *)
Definition with_ext {world} (st : State world) (w : world) : State world :=
  mkState (sys_stdout st) (sys_stderr st) (llm st) w.

(** The keyword arguments the module body passes to [Llama], given what
    [os.cpu_count()] returned. *)
Definition session_args {world} {E : External world} (cpus : option Z)
    : Llama :=
  {| model_path := MODEL_PATH;
     n_ctx := 2048;
     temperature := float_0_7;
     verbose := false;
     n_threads := cpus |}.

(** The sessions built along a trace, in order. *)
Fixpoint loads (tr : list event) : list Llama :=
  match tr with
  | Load args :: tr' => args :: loads tr'
  | _ :: tr' => loads tr'
  | [] => []
  end.

(** The calls that reached the engine along a trace, in order. *)
Fixpoint generations (tr : list event) : list CompletionArgs :=
  match tr with
  | Generate _ a :: tr' => a :: generations tr'
  | _ :: tr' => generations tr'
  | [] => []
  end.

(** The [Serve] events of a trace. *)
Fixpoint serving (tr : list event) : list (str * Z) :=
  match tr with
  | Serve host port _ :: tr' => (host, port) :: serving tr'
  | _ :: tr' => serving tr'
  | [] => []
  end.

(** The body [{"reply": r}]. *)
Definition reply_body (r : str) : body :=
  Json (VDict {[ lit "reply" := VStr r ]}).

(** The binary64 number [m * 2^e] of the binade from 1/2 to 1 (53
    significant bits, so [e = -53]) is the one nearest to [p/q] when the
    two are less than half a unit in the last place apart. *)
Definition nearest_double (m : positive) (e : Z) (p q : Z) : Prop :=
  e = -53 /\ 2 ^ 52 <= Z.pos m < 2 ^ 53 /\
  Z.abs (2 * (q * Z.pos m - p * 2 ^ 53)) < q.

(** * Properties *)

Global Arguments lit : simpl never.

(** Unfolds the monad's operations and reduces the run records. *)
Ltac run_py :=
  repeat progress
    (unfold mbind, M_bind, mret, M_ret;
     unfold set_ext, set_llm, set_stdout, set_stderr, get_llm, print,
            exists_, cpu_count, first_choice_text;
     unfold bind, ret, raise, emit, get_state, put_state;
     cbn).

(** ** The monad laws *)

Section MonadLaws.

Context {world : Type}.

Lemma bind_ret_l {A B} (a : A) (k : A -> M world B) (st : State world) :
  bind (ret a) k st = k a st.
Proof. unfold bind, ret. destruct (k a st). reflexivity. Qed.

Lemma bind_ret_r {A} (m : M world A) (st : State world) :
  bind m ret st = m st.
Proof.
  unfold bind, ret. destruct (m st) as [tr st1 [e|a]]; [reflexivity|].
  rewrite app_nil_r. reflexivity.
Qed.

Lemma bind_raise {A B} (e : exn) (k : A -> M world B) (st : State world) :
  bind (raise e) k st = raise e st.
Proof. reflexivity. Qed.

Lemma bind_assoc {A B C} (m : M world A) (k : A -> M world B)
    (h : B -> M world C) (st : State world) :
  bind (bind m k) h st = bind m (fun a => bind (k a) h) st.
Proof.
  unfold bind. destruct (m st) as [tr st1 [e|a]]; [reflexivity|].
  destruct (k a st1) as [tr1 st2 [e|b]]; [reflexivity|].
  destruct (h b st2) as [tr2 st3 r]. rewrite app_assoc. reflexivity.
Qed.

End MonadLaws.

(** ** Trimming *)

Section StripFacts.

Lemma lstrip_split (s : str) :
  exists pre, s = pre ++ lstrip s /\ blank pre = true.
Proof.
  induction s as [|c s [pre [Hs Hpre]]]; simpl.
  - exists []. split; reflexivity.
  - destruct (isspace c) eqn:Hc.
    + exists (c :: pre). split.
      * simpl. f_equal. exact Hs.
      * unfold blank in *. simpl. rewrite Hc. exact Hpre.
    + exists []. split; reflexivity.
Qed.

Lemma lstrip_head (s : str) (c : char) :
  head (lstrip s) = Some c -> isspace c = false.
Proof.
  induction s as [|a s IH]; simpl; [discriminate|].
  destruct (isspace a) eqn:Ha; [exact IH|].
  simpl. intros [= <-]. exact Ha.
Qed.

Lemma lstrip_blank_app (pre s : str) :
  blank pre = true -> lstrip (pre ++ s) = lstrip s.
Proof.
  induction pre as [|c pre IH]; simpl; [reflexivity|].
  intros [Hc Hpre]%andb_prop. rewrite Hc. auto.
Qed.

Lemma lstrip_fixed (s : str) :
  (forall c, head s = Some c -> isspace c = false) -> lstrip s = s.
Proof.
  destruct s as [|c s]; simpl; [reflexivity|].
  intros H. rewrite (H c eq_refl). reflexivity.
Qed.

Lemma lstrip_nil_blank (s : str) : lstrip s = [] <-> blank s = true.
Proof.
  induction s as [|c s IH]; simpl; [tauto|].
  destruct (isspace c); simpl; [exact IH|].
  split; discriminate.
Qed.

Lemma blank_rev (s : str) : blank (rev s) = blank s.
Proof.
  unfold blank. induction s as [|c s IH]; simpl; [reflexivity|].
  rewrite forallb_app, IH. simpl. rewrite andb_true_r. apply andb_comm.
Qed.

Lemma blank_app (s t : str) : blank (s ++ t) = blank s && blank t.
Proof. apply forallb_app. Qed.

Lemma head_rev_last (s : str) : head (rev s) = last s.
Proof.
  induction s as [|c s IH] using rev_ind; [reflexivity|].
  rewrite rev_app_distr, last_snoc. reflexivity.
Qed.

Lemma rstrip_split (s : str) :
  exists post, s = rstrip s ++ post /\ blank post = true.
Proof.
  unfold rstrip. destruct (lstrip_split (rev s)) as [pre [Hs Hpre]].
  exists (rev pre). split.
  - rewrite <- rev_app_distr, <- Hs. symmetry. apply rev_involutive.
  - rewrite blank_rev. exact Hpre.
Qed.

Lemma rstrip_last (s : str) (c : char) :
  last (rstrip s) = Some c -> isspace c = false.
Proof.
  unfold rstrip. rewrite <- head_rev_last, rev_involutive.
  apply lstrip_head.
Qed.

(** Dropping a suffix does not expose a new first character. *)
Lemma rstrip_head (s : str) (c : char) :
  (forall a, head s = Some a -> isspace a = false) ->
  head (rstrip s) = Some c -> isspace c = false.
Proof.
  intros Hs Hc. destruct (rstrip_split s) as [post [Heq _]].
  apply Hs. rewrite Heq.
  destruct (rstrip s) as [|a r]; [discriminate|]. exact Hc.
Qed.

Lemma strip_Trimmed (s : str) : Trimmed s (strip s).
Proof.
  unfold strip.
  destruct (lstrip_split s) as [pre [Hs Hpre]].
  destruct (rstrip_split (lstrip s)) as [post [Hl Hpost]].
  exists pre, post. repeat split; auto.
  - rewrite <- Hl. exact Hs.
  - intros c. apply rstrip_head. apply lstrip_head.
  - apply rstrip_last.
Qed.

Lemma Trimmed_strip (s t : str) : Trimmed s t -> strip s = t.
Proof.
  intros (pre & post & -> & Hpre & Hpost & Hhd & Hlast).
  unfold strip. rewrite lstrip_blank_app by exact Hpre.
  destruct t as [|c t].
  - simpl. apply lstrip_nil_blank in Hpost. rewrite Hpost. reflexivity.
  - rewrite lstrip_fixed.
    2:{ intros a Ha. apply Hhd. exact Ha. }
    unfold rstrip. rewrite rev_app_distr.
    rewrite lstrip_blank_app by (rewrite blank_rev; exact Hpost).
    rewrite lstrip_fixed; [apply rev_involutive|].
    intros a Ha. rewrite head_rev_last in Ha. auto.
Qed.

Lemma strip_nil_blank (s : str) : strip s = [] <-> blank s = true.
Proof.
  split.
  - intros H. destruct (strip_Trimmed s) as (pre & post & Hs & Hpre & Hpost & _).
    rewrite H in Hs. rewrite Hs. simpl.
    rewrite blank_app, Hpre, Hpost. reflexivity.
  - intros H. apply Trimmed_strip. exists s, []. simpl.
    rewrite app_nil_r. repeat split; auto; discriminate.
Qed.

End StripFacts.

(** ** The [chat] view, path by path *)

Section ChatFacts.

Context {world : Type} {E : External world}.

Implicit Types (st : State world) (request : Request) (d : gmap str value).

Lemma py_or_dict d : py_or (VDict d) (VDict ∅) = VDict d.
Proof.
  unfold py_or. simpl. case_bool_decide as Hd; simpl; congruence.
Qed.

Lemma py_or_falsy (v : value) :
  truthy v = false -> py_or v (VDict ∅) = VDict ∅.
Proof. unfold py_or. intros ->. reflexivity. Qed.

Lemma chat_bad_body request e st :
  get_json request = inl e -> chat request st = mkRun [] st (inl e).
Proof. unfold chat. intros ->. reflexivity. Qed.

Lemma chat_not_dict request v st :
  get_json request = inr v -> truthy v = true ->
  (forall d, v <> VDict d) ->
  chat request st =
    mkRun [] st (inl (AttributeError (type_name v) (lit "get"))).
Proof.
  intros Hj Ht Hv. unfold chat. rewrite Hj. run_py.
  unfold py_or. rewrite Ht.
  destruct v; try reflexivity. destruct (Hv d eq_refl).
Qed.

(** The view on a [dict] body, with every branch written out. *)
Lemma chat_dict request d st :
  get_json request = inr (VDict d) ->
  chat request st =
    match default (VStr []) (d !! lit "message") with
    | VStr s =>
        match strip s with
        | [] => mkRun [] st (inr (jsonify_reply []))
        | _ :: _ =>
            match llm st with
            | None => mkRun [] st (inl (NameError (lit "llm")))
            | Some l =>
                let '(w, r) := llama_call l (chat_args (strip s)) (ext st) in
                mkRun [Generate l (chat_args (strip s))] (with_ext st w)
                  match r with
                  | inl f => inl (EngineError f)
                  | inr resp =>
                      match choices resp with
                      | [] => inl IndexError
                      | c :: _ => inr (jsonify_reply (strip (text c)))
                      end
                  end
            end
        end
    | v => mkRun [] st (inl (AttributeError (type_name v) (lit "strip")))
    end.
Proof.
  intros Hj. unfold chat. rewrite Hj. run_py. rewrite py_or_dict. cbn.
  destruct (default (VStr []) (d !! lit "message")) as [| | | |s| |];
    try reflexivity.
  cbn. destruct (strip s) as [|c u] eqn:Hs; [reflexivity|].
  run_py. destruct (llm st) as [l|] eqn:Hl; [|reflexivity].
  unfold Llama_call, chat_args. run_py.
  destruct (llama_call l _ (ext st)) as [w [f|resp]]; run_py;
    [reflexivity|].
  unfold with_ext. destruct (choices resp); reflexivity.
Qed.

Lemma chat_falsy request v st :
  get_json request = inr v -> truthy v = false ->
  chat request st = mkRun [] st (inr (jsonify_reply [])).
Proof.
  intros Hj Ht. unfold chat. rewrite Hj. run_py.
  rewrite (py_or_falsy v Ht). reflexivity.
Qed.

(** *** Routing *)

Lemma view_for_chat request :
  req_method request = POST -> req_path request = lit "/chat" ->
  view_for request = chat request.
Proof. unfold view_for. intros -> ->. reflexivity. Qed.

Lemma dispatch_chat request st :
  req_method request = POST -> req_path request = lit "/chat" ->
  full_dispatch_request request st =
    match result (chat request st) with
    | inl e =>
        mkRun (trace (chat request st)) (final (chat request st))
          (inr (handle_exception e))
    | inr _ => chat request st
    end.
Proof.
  intros Hm Hp. unfold full_dispatch_request.
  rewrite (view_for_chat request Hm Hp). reflexivity.
Qed.

Lemma dispatch_chat_ok request st tr st' resp :
  req_method request = POST -> req_path request = lit "/chat" ->
  chat request st = mkRun tr st' (inr resp) ->
  full_dispatch_request request st = mkRun tr st' (inr resp).
Proof.
  intros Hm Hp Hc. rewrite (dispatch_chat request st Hm Hp), Hc.
  reflexivity.
Qed.

Lemma dispatch_chat_raise request st tr st' e :
  req_method request = POST -> req_path request = lit "/chat" ->
  chat request st = mkRun tr st' (inl e) ->
  full_dispatch_request request st =
    mkRun tr st' (inr (handle_exception e)).
Proof.
  intros Hm Hp Hc. rewrite (dispatch_chat request st Hm Hp), Hc.
  reflexivity.
Qed.

(** *** The blank and the non-blank message *)

Lemma chat_blank request d st :
  get_json request = inr (VDict d) ->
  d !! lit "message" = None \/
    (exists s, d !! lit "message" = Some (VStr s) /\ blank s = true) ->
  chat request st = mkRun [] st (inr (jsonify_reply [])).
Proof.
  intros Hj Hd. rewrite (chat_dict request d st Hj).
  destruct Hd as [-> | (s & -> & Hs)]; cbn.
  - reflexivity.
  - apply strip_nil_blank in Hs. rewrite Hs. reflexivity.
Qed.

Lemma chat_nonblank request d m l st :
  get_json request = inr (VDict d) ->
  d !! lit "message" = Some (VStr m) -> strip m <> [] ->
  llm st = Some l ->
  chat request st =
    let '(w, r) := llama_call l (chat_args (strip m)) (ext st) in
    mkRun [Generate l (chat_args (strip m))] (with_ext st w)
      match r with
      | inl f => inl (EngineError f)
      | inr resp =>
          match choices resp with
          | [] => inl IndexError
          | c :: _ => inr (jsonify_reply (strip (text c)))
          end
      end.
Proof.
  intros Hj Hd Hm Hl. rewrite (chat_dict request d st Hj), Hd. cbn.
  destruct (strip m) as [|c u]; [congruence|]. rewrite Hl. reflexivity.
Qed.

(** Whatever the request, [chat] reaches the engine at most once, and
    then with the session bound to [llm] and arguments of the one shape
    [chat_args]. *)
Lemma chat_trace request st :
  trace (chat request st) = [] /\ final (chat request st) = st \/
  exists l u,
    llm st = Some l /\
    trace (chat request st) = [Generate l (chat_args u)] /\
    final (chat request st) =
      with_ext st (fst (llama_call l (chat_args u) (ext st))) /\
    result (chat request st) =
      match snd (llama_call l (chat_args u) (ext st)) with
      | inl f => inl (EngineError f)
      | inr resp =>
          match choices resp with
          | [] => inl IndexError
          | c :: _ => inr (jsonify_reply (strip (text c)))
          end
      end.
Proof.
  destruct (get_json request) as [e|v] eqn:Hj.
  { left. rewrite (chat_bad_body request e st Hj). split; reflexivity. }
  destruct (truthy v) eqn:Ht.
  2:{ left. rewrite (chat_falsy request v st Hj Ht). split; reflexivity. }
  destruct v as [| | | | | |d];
    try (left; rewrite (chat_not_dict request _ st Hj Ht);
         [split; reflexivity | congruence]).
  rewrite (chat_dict request d st Hj).
  destruct (default (VStr []) (d !! lit "message")) as [| | | |s| |];
    try (left; split; reflexivity).
  destruct (strip s) as [|c u]; [left; split; reflexivity|].
  destruct (llm st) as [l|] eqn:Hl; [|left; split; reflexivity].
  right. exists l, (c :: u). split; [reflexivity|].
  destruct (llama_call l (chat_args (c :: u)) (ext st)) as [w r].
  unfold with_ext. rewrite Hl. repeat split; reflexivity.
Qed.

End ChatFacts.

(** ** The request handler *)

Section Handler.

Context {world : Type} {E : External world}.

Implicit Types (st : State world) (request : Request) (d : gmap str value).

(** C1.  A POST /chat request whose JSON object has no [message], or a
    [message] that is empty or all white space, is answered with exactly
    [{"reply": ""}] and status 200; the run emits no event, so the model
    session is not invoked, and the state is left as it was. *)
Theorem chat_blank_message_empty_reply request d st :
  req_method request = POST -> req_path request = lit "/chat" ->
  get_json request = inr (VDict d) ->
  d !! lit "message" = None \/
    (exists s, d !! lit "message" = Some (VStr s) /\ blank s = true) ->
  full_dispatch_request request st =
    mkRun [] st (inr (mkResponse 200 (reply_body (lit "")))).
Proof.
  intros Hm Hp Hj Hd. apply dispatch_chat_ok; [exact Hm | exact Hp |].
  apply (chat_blank request d st Hj Hd).
Qed.

(** C2.  For a message [m] that is not blank, the one call that reaches
    the model session carries the prompt "[INST] " ++ strip m ++
    " [/INST]". *)
Theorem chat_prompt_wraps_trimmed_message request d m l st :
  get_json request = inr (VDict d) ->
  d !! lit "message" = Some (VStr m) -> strip m <> [] ->
  llm st = Some l ->
  map prompt (generations (trace (chat request st))) =
    [lit "[INST] " ++ strip m ++ lit " [/INST]"].
Proof.
  intros Hj Hd Hm Hl. rewrite (chat_nonblank request d m l st Hj Hd Hm Hl).
  destruct (llama_call l (chat_args (strip m)) (ext st)) as [w r].
  reflexivity.
Qed.

(** C3.  Whenever [chat] invokes the model session, it does so once, with
    [max_tokens] 256 and the single stop sequence "[/INST]", and what it
    returns is built from the text of the first choice of the answer. *)
Theorem chat_call_arguments request st l a :
  In (Generate l a) (trace (chat request st)) ->
  trace (chat request st) = [Generate l a] /\
  max_tokens a = 256 /\
  stop a = [lit "[/INST]"] /\
  forall resp,
    snd (llama_call l a (ext st)) = inr resp ->
    result (chat request st) =
      match choices resp with
      | c :: _ => inr (mkResponse 200 (reply_body (strip (text c))))
      | [] => inl IndexError
      end.
Proof.
  intros Hin.
  destruct (chat_trace request st)
    as [[Hnil _] | (l' & u & Hl & Htr & _ & Hres)].
  { rewrite Hnil in Hin. destruct Hin. }
  rewrite Htr in Hin. destruct Hin as [[= <- <-] | []].
  repeat split; [exact Htr|].
  intros resp Hresp. rewrite Hres, Hresp.
  destruct (choices resp); reflexivity.
Qed.

(** C4.  For a message that is not blank and an engine answer whose
    first choice has text [t], the response is [{"reply": r}] with
    status 200, where [r] is [t] with its leading and trailing white
    space removed. *)
Theorem chat_reply_is_trimmed_completion request d m l w resp c rest st :
  req_method request = POST -> req_path request = lit "/chat" ->
  get_json request = inr (VDict d) ->
  d !! lit "message" = Some (VStr m) -> strip m <> [] ->
  llm st = Some l ->
  llama_call l (chat_args (strip m)) (ext st) = (w, inr resp) ->
  choices resp = c :: rest ->
  result (full_dispatch_request request st) =
    inr (mkResponse 200 (reply_body (strip (text c)))) /\
  Trimmed (text c) (strip (text c)).
Proof.
  intros Hmeth Hp Hj Hd Hm Hl Hcall Hch. split; [|apply strip_Trimmed].
  rewrite (dispatch_chat request st Hmeth Hp).
  rewrite (chat_nonblank request d m l st Hj Hd Hm Hl), Hcall, Hch.
  reflexivity.
Qed.

End Handler.

(** ** Concrete runs on the test double *)

(** [{"message": "   "}] against an engine that would fail if reached. *)
Lemma chat_blank_message_empty_reply_witness :
  let E := Stub.external true Stub.fails in
  let request := Stub.post (Stub.message "   ") in
  (req_method request = POST /\ req_path request = lit "/chat") /\
  full_dispatch_request request Stub.ready =
    mkRun [] Stub.ready (inr (mkResponse 200 (reply_body (lit "")))).
Proof.
  intros E request. split; [split; reflexivity|].
  apply (chat_blank_message_empty_reply (E := E) request
           {[ lit "message" := VStr (lit "   ") ]} Stub.ready);
    try reflexivity.
  right. exists (lit "   "). split; reflexivity.
Defined.

(** The prompt for "Hello". *)
Lemma chat_prompt_wraps_trimmed_message_witness :
  let E := Stub.external true (Stub.says "Hi there") in
  strip (lit "Hello") <> [] /\
  map prompt
    (generations (trace (chat (Stub.post (Stub.message "Hello")) Stub.ready)))
  = [lit "[INST] Hello [/INST]"].
Proof.
  intros E. split; [discriminate|].
  apply (chat_prompt_wraps_trimmed_message (E := E)
           (Stub.post (Stub.message "Hello"))
           {[ lit "message" := VStr (lit "Hello") ]} (lit "Hello")
           (mkLlama (lit "/srv/pages/models/llama-2-7b-chat.Q4_K_M.gguf")
              2048 float_0_7 false (Some 4))
           Stub.ready);
    try reflexivity.
  discriminate.
Defined.

(** One call, with the arguments of the source. *)
Lemma chat_call_arguments_witness :
  let E := Stub.external true (Stub.says "Hi there") in
  let request := Stub.post (Stub.message "Hello") in
  let l := mkLlama (lit "/srv/pages/models/llama-2-7b-chat.Q4_K_M.gguf")
             2048 float_0_7 false (Some 4) in
  let a := mkArgs (lit "[INST] Hello [/INST]") 256 [lit "[/INST]"] in
  In (Generate l a) (trace (chat request Stub.ready)) /\
  trace (chat request Stub.ready) = [Generate l a] /\
  result (chat request Stub.ready) =
    inr (mkResponse 200 (reply_body (lit "Hi there"))).
Proof.
  intros E request l a.
  assert (Hin : In (Generate l a) (trace (chat request Stub.ready)))
    by (vm_compute; left; reflexivity).
  split; [exact Hin|].
  destruct (chat_call_arguments (E := E) request Stub.ready l a Hin)
    as (Htr & _ & _ & Hres).
  split; [exact Htr|].
  apply (Hres (mkCompletion [mkChoice (lit "Hi there")])).
  vm_compute. reflexivity.
Defined.

(** "What is 2+2?" answered with "  4  " gives [{"reply": "4"}]. *)
Lemma chat_reply_is_trimmed_completion_witness :
  let E := Stub.external true (Stub.says "  4  ") in
  let request := Stub.post (Stub.message "What is 2+2?") in
  strip (lit "What is 2+2?") <> [] /\
  result (full_dispatch_request request Stub.ready) =
    inr (mkResponse 200 (reply_body (lit "4"))) /\
  Trimmed (lit "  4  ") (lit "4").
Proof.
  intros E request. split; [discriminate|].
  apply (chat_reply_is_trimmed_completion (E := E) request
           {[ lit "message" := VStr (lit "What is 2+2?") ]}
           (lit "What is 2+2?")
           (mkLlama (lit "/srv/pages/models/llama-2-7b-chat.Q4_K_M.gguf")
              2048 float_0_7 false (Some 4))
           1%nat (mkCompletion [mkChoice (lit "  4  ")])
           (mkChoice (lit "  4  ")) [] Stub.ready);
    try (vm_compute; reflexivity).
  discriminate.
Defined.

(** ** Start-up and serving *)

Section Process.

Context {world : Type} {E : External world}.

Implicit Types (st : State world) (request : Request).

(** The module body, with every branch written out. *)
Lemma module_body_run st :
  module_body st =
    if os_path_exists (ext st) MODEL_PATH then
      let args := session_args (os_cpu_count (ext st)) in
      let '(w, r) := llama_init args (ext st) in
      match r with
      | Some f =>
          mkRun [Load args] (mkState StringIO StringIO (llm st) w)
            (inl (EngineError f))
      | None =>
          mkRun [Load args]
            (mkState (sys_stdout st) (sys_stderr st) (Some args) w) (inr tt)
      end
    else mkRun [] st (inl (FileNotFoundError MODEL_PATH)).
Proof.
  unfold module_body. run_py.
  destruct (os_path_exists (ext st) MODEL_PATH); [|reflexivity].
  unfold Llama_new, session_args. run_py.
  destruct (llama_init _ (ext st)) as [w [f|]]; reflexivity.
Qed.

Lemma index_run st :
  trace (index st) = [] /\ final (index st) = st.
Proof.
  unfold index. run_py.
  destruct (render_template (lit "chat.html") (ext st)); split; reflexivity.
Qed.

(** No view assigns [llm] or the [sys] streams, and a call that reaches
    the engine goes to the session [llm] is bound to. *)
Lemma view_for_frame request st :
  llm (final (view_for request st)) = llm st /\
  sys_stdout (final (view_for request st)) = sys_stdout st /\
  sys_stderr (final (view_for request st)) = sys_stderr st /\
  loads (trace (view_for request st)) = [] /\
  serving (trace (view_for request st)) = [] /\
  forall l a, In (Generate l a) (trace (view_for request st)) ->
              llm st = Some l.
Proof.
  assert (Hchat :
    llm (final (chat request st)) = llm st /\
    sys_stdout (final (chat request st)) = sys_stdout st /\
    sys_stderr (final (chat request st)) = sys_stderr st /\
    loads (trace (chat request st)) = [] /\
    serving (trace (chat request st)) = [] /\
    forall l a, In (Generate l a) (trace (chat request st)) ->
                llm st = Some l).
  { destruct (chat_trace request st)
      as [[Hnil Hfin] | (l & u & Hl & Htr & Hfin & _)].
    - rewrite Hnil, Hfin. repeat split; try reflexivity. intros l a [].
    - rewrite Htr, Hfin. repeat split; try reflexivity.
      intros l' a [[= <- <-] | []]. exact Hl. }
  unfold view_for.
  destruct (bool_decide (req_path request = lit "/")).
  { destruct (req_method request).
    - destruct (index_run st) as [-> ->].
      repeat split; try reflexivity. intros l a [].
    - repeat split; try reflexivity. intros l a []. }
  destruct (bool_decide (req_path request = lit "/chat")).
  { destruct (req_method request); [|exact Hchat].
    repeat split; try reflexivity. intros l a []. }
  repeat split; try reflexivity. intros l a [].
Qed.

Lemma bind_run {A B} (m : M world A) (k : A -> M world B) st :
  bind m k st =
    match result (m st) with
    | inl e => mkRun (trace (m st)) (final (m st)) (inl e)
    | inr a =>
        mkRun (trace (m st) ++ trace (k a (final (m st))))
          (final (k a (final (m st)))) (result (k a (final (m st))))
    end.
Proof.
  unfold bind. destruct (m st) as [tr st' [e|a]]; cbn; [reflexivity|].
  destruct (k a st'); reflexivity.
Qed.

Lemma loads_app (tr tr' : list event) :
  loads (tr ++ tr') = loads tr ++ loads tr'.
Proof.
  induction tr as [|ev tr IH]; [reflexivity|].
  destruct ev; cbn; rewrite IH; reflexivity.
Qed.

Lemma serving_app (tr tr' : list event) :
  serving (tr ++ tr') = serving tr ++ serving tr'.
Proof.
  induction tr as [|ev tr IH]; [reflexivity|].
  destruct ev; cbn; rewrite IH; reflexivity.
Qed.

(** Flask turns whatever leaves a view into a response. *)
Lemma dispatch_run request st :
  trace (full_dispatch_request request st) = trace (view_for request st) /\
  final (full_dispatch_request request st) = final (view_for request st) /\
  exists resp, result (full_dispatch_request request st) = inr resp.
Proof.
  unfold full_dispatch_request.
  destruct (view_for request st) as [tr st' [e|resp]]; cbn; eauto.
Qed.

Lemma serve_cons request rest st :
  serve (request :: rest) st =
    match result (full_dispatch_request request st) with
    | inl e =>
        mkRun (trace (full_dispatch_request request st))
          (final (full_dispatch_request request st)) (inl e)
    | inr resp =>
        let st' := final (full_dispatch_request request st) in
        mkRun (trace (full_dispatch_request request st) ++ trace (serve rest st'))
          (final (serve rest st'))
          match result (serve rest st') with
          | inl e => inl e
          | inr resps => inr (resp :: resps)
          end
    end.
Proof.
  cbn [serve]. unfold mbind, M_bind. rewrite bind_run.
  destruct (result (full_dispatch_request request st)) as [e|resp];
    [reflexivity|].
  rewrite bind_run. unfold mret, M_ret, ret.
  destruct (result (serve rest _)); cbn; rewrite ?app_nil_r; reflexivity.
Qed.

(** Serving answers every request and keeps the session: an invariant of
    the request loop. *)
Lemma serve_frame incoming : forall st,
  llm (final (serve incoming st)) = llm st /\
  sys_stdout (final (serve incoming st)) = sys_stdout st /\
  loads (trace (serve incoming st)) = [] /\
  serving (trace (serve incoming st)) = [] /\
  (forall l a, In (Generate l a) (trace (serve incoming st)) ->
               llm st = Some l) /\
  exists resps,
    result (serve incoming st) = inr resps /\
    length resps = length incoming.
Proof.
  induction incoming as [|request rest IH]; intros st.
  { cbn. repeat split; try reflexivity; [intros l a []|].
    exists []. split; reflexivity. }
  rewrite serve_cons.
  destruct (dispatch_run request st) as (Htr & Hfin & resp & Hres).
  destruct (view_for_frame request st)
    as (Hllm & Hout & _ & Hloads & Hserv & Hgen).
  rewrite Hres. cbn zeta. rewrite Htr, Hfin.
  destruct (IH (final (view_for request st)))
    as (IHllm & IHout & IHloads & IHserv & IHgen & resps & IHres & IHlen).
  cbn [trace final result].
  rewrite loads_app, serving_app, Hloads, Hserv, IHloads, IHserv, IHres.
  repeat split; try congruence.
  - intros l a [Hin | Hin]%in_app_or; [eauto|].
    rewrite <- Hllm. eauto.
  - exists (resp :: resps). split; [reflexivity|]. cbn. congruence.
Qed.

(** The whole process, in terms of its two phases. *)
Lemma main_run name incoming st :
  main name incoming st =
    match result (module_body st) with
    | inl e => mkRun (trace (module_body st)) (final (module_body st)) (inl e)
    | inr _ =>
        let st1 := final (module_body st) in
        if bool_decide (name = lit "__main__") then
          mkRun
            (trace (module_body st) ++
             Print (sys_stdout st1)
               (lit "Starting server on http://127.0.0.1:8080/")
             :: Serve (lit "127.0.0.1") 8080 true
             :: trace (serve incoming st1))
            (final (serve incoming st1)) (result (serve incoming st1))
        else mkRun (trace (module_body st)) st1 (inr [])
    end.
Proof.
  unfold main, mbind, M_bind. rewrite bind_run.
  destruct (result (module_body st)) as [e|[]]; [reflexivity|].
  destruct (bool_decide (name = lit "__main__")).
  - rewrite bind_run. unfold print, app_run. run_py.
    destruct (serve incoming (final (module_body st))). reflexivity.
  - cbn. rewrite app_nil_r. reflexivity.
Qed.

Lemma float_0_7_nearest :
  float_0_7 = S754_finite false 6305039478318694 (-53) /\
  nearest_double 6305039478318694 (-53) 7 10.
Proof.
  split; [reflexivity|]. unfold nearest_double.
  split; [reflexivity|]. split; [split|].
  - discriminate.
  - reflexivity.
  - reflexivity.
Qed.

(** C5.  When the weights file is not at [MODEL_PATH], the process ends
    with the [FileNotFoundError] of line 11: nothing was printed, loaded
    or served, the run returns no response to any request that arrives,
    and the state is the initial one. *)
Theorem missing_model_stops_startup name incoming st :
  os_path_exists (ext st) MODEL_PATH = false ->
  main name incoming st = mkRun [] st (inl (FileNotFoundError MODEL_PATH)).
Proof.
  intros Hmissing. rewrite main_run, module_body_run, Hmissing. reflexivity.
Qed.

(** C7.  With the weights file present, a run of the process builds the
    session exactly once, with [n_ctx] 2048, [temperature] 0.7 and
    [n_threads] what [os.cpu_count()] returned; every call that reaches
    the engine goes to that session, the global [llm] is bound to it when
    the run ends, and no request changes what [llm] is bound to. *)
Theorem model_session_built_once_and_kept name incoming st :
  os_path_exists (ext st) MODEL_PATH = true ->
  let args := session_args (os_cpu_count (ext st)) in
  let r := main name incoming st in
  (exists tr, trace r = Load args :: tr /\ loads tr = []) /\
  n_ctx args = 2048 /\
  (temperature args = S754_finite false 6305039478318694 (-53) /\
   nearest_double 6305039478318694 (-53) 7 10) /\
  n_threads args = os_cpu_count (ext st) /\
  (forall l a, In (Generate l a) (trace r) -> l = args) /\
  (forall resps, result r = inr resps -> llm (final r) = Some args) /\
  (forall request st',
     llm (final (full_dispatch_request request st')) = llm st').
Proof.
  intros Hfound args r. subst r.
  assert (Hframe : forall request st',
             llm (final (full_dispatch_request request st')) = llm st').
  { intros request st'.
    destruct (dispatch_run request st') as (_ & -> & _).
    apply view_for_frame. }
  enough (Hrun :
    (exists tr, trace (main name incoming st) = Load args :: tr /\
                loads tr = []) /\
    (forall l a, In (Generate l a) (trace (main name incoming st)) ->
                 l = args) /\
    (forall resps, result (main name incoming st) = inr resps ->
                   llm (final (main name incoming st)) = Some args)).
  { destruct Hrun as (Hload & Hgen & Hfin).
    split; [exact Hload|]. split; [reflexivity|].
    split; [exact float_0_7_nearest|]. split; [reflexivity|].
    split; [exact Hgen|]. split; [exact Hfin | exact Hframe]. }
  rewrite main_run, module_body_run, Hfound. cbn zeta. fold args.
  destruct (llama_init args (ext st)) as [w [f|]] eqn:Hinit;
    cbn [trace final result].
  { split; [exists []; split; reflexivity|]. split.
    - intros l a [[=] | []].
    - discriminate. }
  set (st1 := mkState (sys_stdout st) (sys_stderr st) (Some args) w).
  destruct (serve_frame incoming st1)
    as (Hllm & _ & Hloads & _ & Hgen & _).
  destruct (bool_decide (name = lit "__main__"));
    cbn [trace final result app].
  - split; [eexists; split; [reflexivity | exact Hloads]|]. split.
    + intros l a [[=] | [[=] | [[=] | Hin]]].
      specialize (Hgen l a Hin). cbn in Hgen. congruence.
    + intros _ _. exact Hllm.
  - split; [exists []; split; reflexivity|]. split.
    + intros l a [[=] | []].
    + intros _ _. reflexivity.
Qed.

End Process.

(** ** Success and failure of a request *)

Section Outcomes.

Context {world : Type} {E : External world}.

Implicit Types (st : State world) (request : Request) (d : gmap str value).

Lemma truthy_false (v : value) :
  truthy v = false <->
  v = VNone \/ v = VBool false \/ v = VInt 0 \/
  (exists s, v = VFloat (S754_zero s)) \/
  v = VStr [] \/ v = VList [] \/ v = VDict ∅.
Proof.
  split.
  - destruct v as [|b|n|x|s|l|d]; cbn; intros H.
    + auto.
    + subst b. auto.
    + apply negb_false_iff, Z.eqb_eq in H. subst n. auto 6.
    + destruct x; try discriminate. eauto 7.
    + destruct s; [auto 8 | discriminate].
    + destruct l; [auto 8 | discriminate].
    + apply negb_false_iff, bool_decide_eq_true in H. subst d. auto 8.
  - intros [-> | [-> | [-> | [[s ->] | [-> | [-> | ->]]]]]]; reflexivity.
Qed.

(** C6.  For a non-empty message [m] and a backend that succeeds (each
    call returns a completion with at least one choice), POST /chat with
    [{"message": m}] is answered with status 200 and a JSON object whose
    [reply] is a string. *)
Theorem chat_nonempty_message_gets_reply request d m l st :
  req_method request = POST -> req_path request = lit "/chat" ->
  get_json request = inr (VDict d) ->
  d !! lit "message" = Some (VStr m) -> m <> [] ->
  llm st = Some l ->
  (forall a, exists w c rest,
     llama_call l a (ext st) = (w, inr (mkCompletion (c :: rest)))) ->
  exists r,
    result (full_dispatch_request request st) =
      inr (mkResponse 200 (reply_body r)).
Proof.
  intros Hmeth Hp Hj Hd _ Hl Hok.
  rewrite (dispatch_chat request st Hmeth Hp).
  destruct (strip m) as [|c u] eqn:Hm.
  - exists []. rewrite (chat_blank request d st Hj); [reflexivity|].
    right. exists m. split; [exact Hd|]. apply strip_nil_blank. exact Hm.
  - assert (Hne : strip m <> []) by congruence.
    rewrite (chat_nonblank request d m l st Hj Hd Hne Hl).
    destruct (Hok (chat_args (strip m))) as (w & ch & rest & ->).
    exists (strip (text ch)). reflexivity.
Qed.

(** C8.  When the engine raises on the call for a non-blank message, the
    exception leaves [chat]: the view returns no reply, the engine was
    called once and not again, and Flask answers with its generic 500
    page. *)
Theorem chat_engine_failure_propagates request d m l w f st :
  req_method request = POST -> req_path request = lit "/chat" ->
  get_json request = inr (VDict d) ->
  d !! lit "message" = Some (VStr m) -> strip m <> [] ->
  llm st = Some l ->
  llama_call l (chat_args (strip m)) (ext st) = (w, inl f) ->
  chat request st =
    mkRun [Generate l (chat_args (strip m))] (with_ext st w)
      (inl (EngineError f)) /\
  full_dispatch_request request st =
    mkRun [Generate l (chat_args (strip m))] (with_ext st w)
      (inr (mkResponse 500 ErrorPage)).
Proof.
  intros Hmeth Hp Hj Hd Hm Hl Hcall.
  assert (Hchat : chat request st =
            mkRun [Generate l (chat_args (strip m))] (with_ext st w)
              (inl (EngineError f))).
  { rewrite (chat_nonblank request d m l st Hj Hd Hm Hl), Hcall.
    reflexivity. }
  split; [exact Hchat|].
  apply (dispatch_chat_raise request st _ _ _ Hmeth Hp Hchat).
Qed.

(** C9.  A POST /chat body that parses to [None] or to any other false
    value is handled as the empty object is: the answer is
    [{"reply": ""}] with status 200 and the model session is not
    invoked. *)
Theorem chat_falsy_body_as_empty_object request v st :
  req_method request = POST -> req_path request = lit "/chat" ->
  get_json request = inr v -> truthy v = false ->
  full_dispatch_request request st =
    full_dispatch_request (mkRequest POST (lit "/chat") (inr (VDict ∅))) st /\
  full_dispatch_request request st =
    mkRun [] st (inr (mkResponse 200 (reply_body (lit "")))).
Proof.
  intros Hmeth Hp Hj Hv.
  assert (Hrun : full_dispatch_request request st =
            mkRun [] st (inr (mkResponse 200 (reply_body (lit ""))))).
  { apply dispatch_chat_ok; [exact Hmeth | exact Hp |].
    apply (chat_falsy request v st Hj Hv). }
  split; [|exact Hrun]. rewrite Hrun. symmetry.
  apply dispatch_chat_ok; [reflexivity | reflexivity |].
  apply (chat_falsy _ (VDict ∅)); reflexivity.
Qed.

(** C10.  A [message] that is present and not a string makes [chat] raise
    [AttributeError] at [.strip()], before any call to the engine, and
    Flask answers with its 500 page; and a run of [chat] that returns a
    response had a body that is false or a [dict] whose [message] is
    absent or a string. *)
Theorem chat_non_string_message_raises request d v st :
  req_method request = POST -> req_path request = lit "/chat" ->
  get_json request = inr (VDict d) ->
  d !! lit "message" = Some v -> (forall s, v <> VStr s) ->
  (chat request st =
     mkRun [] st (inl (AttributeError (type_name v) (lit "strip"))) /\
   full_dispatch_request request st =
     mkRun [] st (inr (mkResponse 500 ErrorPage))) /\
  (forall request' st' resp,
     result (chat request' st') = inr resp ->
     exists v',
       get_json request' = inr v' /\
       (truthy v' = false \/
        exists d', v' = VDict d' /\
          (d' !! lit "message" = None \/
           exists s, d' !! lit "message" = Some (VStr s)))).
Proof.
  intros Hmeth Hp Hj Hd Hv. split.
  - assert (Hchat : chat request st =
              mkRun [] st (inl (AttributeError (type_name v) (lit "strip")))).
    { rewrite (chat_dict request d st Hj), Hd. cbn.
      destruct v; try reflexivity. destruct (Hv s eq_refl). }
    split; [exact Hchat|].
    apply (dispatch_chat_raise request st _ _ _ Hmeth Hp Hchat).
  - clear. intros request st resp Hres.
    destruct (get_json request) as [e|v] eqn:Hj.
    { rewrite (chat_bad_body request e st Hj) in Hres. discriminate. }
    exists v. split; [reflexivity|].
    destruct (truthy v) eqn:Ht; [right | left; reflexivity].
    destruct v as [| | | | | |d];
      try (rewrite (chat_not_dict request _ st Hj Ht) in Hres;
           [discriminate | congruence]).
    exists d. split; [reflexivity|].
    rewrite (chat_dict request d st Hj) in Hres.
    destruct (d !! lit "message") as [[| | | |s| |]|]; cbn in Hres;
      try discriminate; eauto.
Qed.

End Outcomes.

(** ** Concrete runs of the process and of failing requests *)

(** A start without the weights file, with a request waiting. *)
Lemma missing_model_stops_startup_witness :
  let E := Stub.external false (Stub.says "never") in
  let incoming := [Stub.post (Stub.message "hi")] in
  os_path_exists (ext Stub.boot) MODEL_PATH = false /\
  main (lit "__main__") incoming Stub.boot =
    mkRun [] Stub.boot
      (inl (FileNotFoundError
              (lit "/srv/pages/models/llama-2-7b-chat.Q4_K_M.gguf"))).
Proof.
  intros E incoming. split; [reflexivity|].
  apply (missing_model_stops_startup (E := E) (lit "__main__") incoming
           Stub.boot).
  reflexivity.
Defined.

(** A non-empty message against an engine that answers. *)
Lemma chat_nonempty_message_gets_reply_witness :
  let E := Stub.external true (Stub.says "  4  ") in
  let request := Stub.post (Stub.message "What is 2+2?") in
  lit "What is 2+2?" <> [] /\
  exists r,
    result (full_dispatch_request request Stub.ready) =
      inr (mkResponse 200 (reply_body r)).
Proof.
  intros E request. split; [discriminate|].
  apply (chat_nonempty_message_gets_reply (E := E) request
           {[ lit "message" := VStr (lit "What is 2+2?") ]}
           (lit "What is 2+2?")
           (mkLlama (lit "/srv/pages/models/llama-2-7b-chat.Q4_K_M.gguf")
              2048 float_0_7 false (Some 4))
           Stub.ready);
    try (vm_compute; reflexivity).
  - discriminate.
  - intros a. exists 1%nat, (mkChoice (lit "  4  ")), []. reflexivity.
Defined.

(** A start with the weights file, then two requests. *)
Lemma model_session_built_once_and_kept_witness :
  let E := Stub.external true (Stub.says "ok") in
  let incoming := [Stub.post (Stub.message "Hello"); Stub.post VNone] in
  let session :=
    mkLlama (lit "/srv/pages/models/llama-2-7b-chat.Q4_K_M.gguf")
      2048 float_0_7 false (Some 4) in
  let r := main (lit "__main__") incoming Stub.boot in
  os_path_exists (ext Stub.boot) MODEL_PATH = true /\
  (exists tr, trace r = Load session :: tr /\ loads tr = []) /\
  llm (final r) = Some session.
Proof.
  intros E incoming session r.
  assert (Hfound : os_path_exists (ext Stub.boot) MODEL_PATH = true)
    by reflexivity.
  split; [exact Hfound|].
  destruct (model_session_built_once_and_kept (E := E) (lit "__main__")
              incoming Stub.boot Hfound)
    as (Hloads & _ & _ & _ & _ & Hfinal & _).
  split; [exact Hloads|].
  apply (Hfinal [mkResponse 200 (reply_body (lit "ok"));
                 mkResponse 200 (reply_body (lit ""))]).
  vm_compute. reflexivity.
Defined.

(** An engine that raises on the call for "Hello". *)
Lemma chat_engine_failure_propagates_witness :
  let E := Stub.external true Stub.fails in
  let request := Stub.post (Stub.message "Hello") in
  let l := mkLlama (lit "/srv/pages/models/llama-2-7b-chat.Q4_K_M.gguf")
             2048 float_0_7 false (Some 4) in
  strip (lit "Hello") <> [] /\
  full_dispatch_request request Stub.ready =
    mkRun [Generate l (chat_args (lit "Hello"))] (with_ext Stub.ready 1%nat)
      (inr (mkResponse 500 ErrorPage)).
Proof.
  intros E request l. split; [discriminate|].
  apply (chat_engine_failure_propagates (E := E) request
           {[ lit "message" := VStr (lit "Hello") ]} (lit "Hello") l 1%nat
           (mkFault (lit "RuntimeError") (lit "llama_decode returned 1"))
           Stub.ready);
    try (vm_compute; reflexivity).
  discriminate.
Defined.

(** The body [null]. *)
Lemma chat_falsy_body_as_empty_object_witness :
  let E := Stub.external true Stub.fails in
  truthy VNone = false /\
  full_dispatch_request (Stub.post VNone) Stub.ready =
    mkRun [] Stub.ready (inr (mkResponse 200 (reply_body (lit "")))).
Proof.
  intros E. split; [reflexivity|].
  apply (chat_falsy_body_as_empty_object (E := E) (Stub.post VNone) VNone
           Stub.ready);
    reflexivity.
Defined.

(** The body [{"message": 42}]. *)
Lemma chat_non_string_message_raises_witness :
  let E := Stub.external true (Stub.says "never") in
  let request :=
    Stub.post (VDict {[ lit "message" := VInt 42 ]}) in
  (forall s, VInt 42 <> VStr s) /\
  chat request Stub.ready =
    mkRun [] Stub.ready (inl (AttributeError (lit "int") (lit "strip"))) /\
  full_dispatch_request request Stub.ready =
    mkRun [] Stub.ready (inr (mkResponse 500 ErrorPage)).
Proof.
  intros E request.
  assert (Hv : forall s, VInt 42 <> VStr s) by discriminate.
  split; [exact Hv|].
  apply (chat_non_string_message_raises (E := E) request
           {[ lit "message" := VInt 42 ]} (VInt 42) Stub.ready);
    try (vm_compute; reflexivity).
  exact Hv.
Defined.

(** ** Further runs on the test double *)

(** [{"message": ""}] and [{}] never reach an engine that would fail. *)
Example chat_empty_message_run :
  let E := Stub.external true Stub.fails in
  chat (Stub.post (Stub.message "")) Stub.ready =
    mkRun [] Stub.ready (inr (mkResponse 200 (reply_body []))).
Proof. vm_compute. reflexivity. Qed.

Example chat_empty_object_run :
  let E := Stub.external true Stub.fails in
  chat (Stub.post (VDict ∅)) Stub.ready =
    mkRun [] Stub.ready (inr (mkResponse 200 (reply_body []))).
Proof. vm_compute. reflexivity. Qed.

(** A body that is a non-empty list has no [get]. *)
Example chat_list_body_run :
  let E := Stub.external true Stub.fails in
  full_dispatch_request (Stub.post (VList [VInt 1])) Stub.ready =
    mkRun [] Stub.ready (inr (mkResponse 500 ErrorPage)).
Proof. vm_compute. reflexivity. Qed.

(** [{"message": null}] is not the absent message. *)
Example chat_null_message_run :
  let E := Stub.external true Stub.fails in
  chat (Stub.post (VDict {[ lit "message" := VNone ]})) Stub.ready =
    mkRun [] Stub.ready
      (inl (AttributeError (lit "NoneType") (lit "strip"))).
Proof. vm_compute. reflexivity. Qed.

(** Trimming covers the white space beyond ASCII. *)
Example strip_unicode_run :
  strip ([160; 8195] ++ lit " a b " ++ [12288; 10])%N = lit "a b".
Proof. vm_compute. reflexivity. Qed.

(** A whole process: start, banner, two requests. *)
Example main_run_example :
  let E := Stub.external true (Stub.says " ok ") in
  let r := main (lit "__main__")
             [Stub.post (Stub.message "Hello"); Stub.post VNone] Stub.boot in
  result r =
    inr [mkResponse 200 (reply_body (lit "ok"));
         mkResponse 200 (reply_body [])] /\
  serving (trace r) = [(lit "127.0.0.1", 8080)] /\
  map prompt (generations (trace r)) = [lit "[INST] Hello [/INST]"].
Proof. vm_compute. repeat split; reflexivity. Qed.

(** * Further properties of the module *)

(** ** More on trimming *)

Section StripMore.

Lemma strip_idempotent (s : str) : strip (strip s) = strip s.
Proof.
  apply Trimmed_strip.
  destruct (strip_Trimmed s) as (_ & _ & _ & _ & _ & Hhd & Hlast).
  exists [], []. rewrite app_nil_r. repeat split; assumption.
Qed.

Lemma strip_padded (pre m post : str) :
  blank pre = true -> blank post = true ->
  strip (pre ++ m ++ post) = strip m.
Proof.
  intros Hpre Hpost. apply Trimmed_strip.
  destruct (strip_Trimmed m) as (p & q & Hm & Hp & Hq & Hhd & Hlast).
  exists (pre ++ p), (q ++ post). repeat split; try assumption.
  - rewrite Hm at 1. rewrite <- !app_assoc. reflexivity.
  - rewrite blank_app, Hpre, Hp. reflexivity.
  - rewrite blank_app, Hq, Hpost. reflexivity.
Qed.

End StripMore.

(** ** What reaches the engine *)

Section Reach.

Context {world : Type} {E : External world}.

Implicit Types (st : State world) (request : Request) (d : gmap str value).

(** A call to the engine has one origin: a [dict] body whose [message] is
    a string that is not blank, with [llm] bound. *)
Lemma chat_generate_inv request st l a :
  In (Generate l a) (trace (chat request st)) ->
  exists d s,
    get_json request = inr (VDict d) /\
    d !! lit "message" = Some (VStr s) /\
    strip s <> [] /\ llm st = Some l /\ a = chat_args (strip s).
Proof.
  intros Hin.
  destruct (get_json request) as [e|v] eqn:Hj.
  { rewrite (chat_bad_body request e st Hj) in Hin. destruct Hin. }
  destruct (truthy v) eqn:Ht.
  2:{ rewrite (chat_falsy request v st Hj Ht) in Hin. destruct Hin. }
  destruct v as [| | | | | |d];
    try (rewrite (chat_not_dict request _ st Hj Ht) in Hin;
         [destruct Hin | congruence]).
  rewrite (chat_dict request d st Hj) in Hin.
  destruct (d !! lit "message") as [[| | | |s| |]|] eqn:Hd; cbn in Hin;
    try (destruct Hin).
  destruct (strip s) as [|c u] eqn:Hs; [destruct Hin|].
  destruct (llm st) as [l'|] eqn:Hl; [|destruct Hin].
  destruct (llama_call l' (chat_args (c :: u)) (ext st)) as [w r].
  destruct Hin as [[= <- <-] | []].
  exists d, s. rewrite Hs. repeat split; congruence.
Qed.


End Reach.

(** ** The engine as [chat] uses it *)

Section Engine.

Context {world : Type} {E : External world}.

Implicit Types (st : State world) (request : Request) (d : gmap str value).


(** X2.  The engine is never asked about nothing: the prompt of every
    call is "[INST] u [/INST]" for a [u] that is not empty, not blank, and
    has no white space at either end. *)
Theorem engine_prompt_is_never_blank request st l a :
  In (Generate l a) (trace (chat request st)) ->
  exists u,
    prompt a = lit "[INST] " ++ u ++ lit " [/INST]" /\
    u <> [] /\ blank u = false /\ strip u = u.
Proof.
  intros Hin.
  destruct (chat_generate_inv request st l a Hin)
    as (d & s & _ & _ & Hs & _ & ->).
  exists (strip s). split; [reflexivity|]. split; [exact Hs|].
  split; [|apply strip_idempotent].
  destruct (blank (strip s)) eqn:Hb; [|reflexivity].
  apply strip_nil_blank in Hb. rewrite strip_idempotent in Hb.
  contradiction.
Qed.

(** X3.  White space around the message changes nothing: a body whose
    [message] is [m] between two runs of white space is handled exactly
    as the body whose [message] is [m]. *)
Theorem chat_ignores_surrounding_whitespace
    request request' d d' pre m post st :
  get_json request = inr (VDict d) ->
  get_json request' = inr (VDict d') ->
  d !! lit "message" = Some (VStr m) ->
  d' !! lit "message" = Some (VStr (pre ++ m ++ post)) ->
  blank pre = true -> blank post = true ->
  chat request' st = chat request st.
Proof.
  intros Hj Hj' Hd Hd' Hpre Hpost.
  rewrite (chat_dict request d st Hj), (chat_dict request' d' st Hj').
  rewrite Hd, Hd'. cbn.
  rewrite (strip_padded pre m post Hpre Hpost). reflexivity.
Qed.

(** X4.  Of a JSON object, [chat] reads the key [message] and nothing
    else: two bodies that agree on it get the same run. *)
Theorem chat_reads_only_message request request' d d' st :
  get_json request = inr (VDict d) ->
  get_json request' = inr (VDict d') ->
  d !! lit "message" = d' !! lit "message" ->
  chat request st = chat request' st.
Proof.
  intros Hj Hj' Hd.
  rewrite (chat_dict request d st Hj), (chat_dict request' d' st Hj'), Hd.
  reflexivity.
Qed.

(** X5.  What [chat] sends to the engine depends on the request only, not
    on what earlier calls did to the world: in two states with the same
    [llm], the same request emits the same events. *)
Theorem chat_calls_independent_of_history request st1 st2 :
  llm st1 = llm st2 ->
  trace (chat request st1) = trace (chat request st2).
Proof.
  intros Hllm.
  destruct (get_json request) as [e|v] eqn:Hj.
  { rewrite !(chat_bad_body request e _ Hj). reflexivity. }
  destruct (truthy v) eqn:Ht.
  2:{ rewrite !(chat_falsy request v _ Hj Ht). reflexivity. }
  destruct v as [| | | | | |d];
    try (rewrite !(chat_not_dict request _ _ Hj Ht) by congruence;
         reflexivity).
  rewrite !(chat_dict request d _ Hj).
  destruct (default (VStr []) (d !! lit "message")) as [| | | |s| |];
    try reflexivity.
  destruct (strip s) as [|c u]; [reflexivity|].
  rewrite <- Hllm. destruct (llm st1) as [l|]; [|reflexivity].
  destruct (llama_call l _ (ext st1)), (llama_call l _ (ext st2)).
  reflexivity.
Qed.

(** X6.  An answer without choices makes [resp['choices'][0]] raise
    [IndexError], after the one call; the request ends as a 500. *)
Theorem chat_empty_choices_raises request d m l w resp st :
  req_method request = POST -> req_path request = lit "/chat" ->
  get_json request = inr (VDict d) ->
  d !! lit "message" = Some (VStr m) -> strip m <> [] ->
  llm st = Some l ->
  llama_call l (chat_args (strip m)) (ext st) = (w, inr resp) ->
  choices resp = [] ->
  chat request st =
    mkRun [Generate l (chat_args (strip m))] (with_ext st w)
      (inl IndexError) /\
  full_dispatch_request request st =
    mkRun [Generate l (chat_args (strip m))] (with_ext st w)
      (inr (mkResponse 500 ErrorPage)).
Proof.
  intros Hmeth Hp Hj Hd Hm Hl Hcall Hch.
  assert (Hchat : chat request st =
            mkRun [Generate l (chat_args (strip m))] (with_ext st w)
              (inl IndexError)).
  { rewrite (chat_nonblank request d m l st Hj Hd Hm Hl), Hcall, Hch.
    reflexivity. }
  split; [exact Hchat|].
  apply (dispatch_chat_raise request st _ _ _ Hmeth Hp Hchat).
Qed.

(** X7.  When [request.get_json()] raises, [chat] stops there: nothing
    reaches the engine, the state is untouched, and the answer is the
    one Flask gives for that exception (its own status for an HTTP
    exception such as 400 or 415). *)
Theorem chat_body_error_passes_through request e st :
  req_method request = POST -> req_path request = lit "/chat" ->
  get_json request = inl e ->
  full_dispatch_request request st =
    mkRun [] st (inr (handle_exception e)) /\
  (forall code, e = HTTPException code ->
     result (full_dispatch_request request st) =
       inr (mkResponse code ErrorPage)).
Proof.
  intros Hmeth Hp Hj.
  assert (Hrun : full_dispatch_request request st =
            mkRun [] st (inr (handle_exception e))).
  { apply (dispatch_chat_raise request st _ _ _ Hmeth Hp).
    apply (chat_bad_body request e st Hj). }
  split; [exact Hrun|]. intros code ->. rewrite Hrun. reflexivity.
Qed.

(** X8.  Every response [chat] returns has status 200 and the one key
    [reply], whose value is already trimmed. *)
Theorem chat_response_is_trimmed_reply request st resp :
  result (chat request st) = inr resp ->
  exists r, resp = mkResponse 200 (reply_body r) /\ strip r = r.
Proof.
  intros Hres.
  destruct (chat_trace request st)
    as [[Hnil _] | (l & u & _ & _ & _ & Hr)].
  - destruct (get_json request) as [e|v] eqn:Hj.
    { rewrite (chat_bad_body request e st Hj) in Hres. discriminate. }
    destruct (truthy v) eqn:Ht.
    2:{ rewrite (chat_falsy request v st Hj Ht) in Hres.
        injection Hres as <-. exists []. split; reflexivity. }
    destruct v as [| | | | | |d];
      try (rewrite (chat_not_dict request _ st Hj Ht) in Hres;
           [discriminate | congruence]).
    rewrite (chat_dict request d st Hj) in Hres, Hnil.
    destruct (default (VStr []) (d !! lit "message")) as [| | | |s| |];
      try discriminate.
    destruct (strip s) as [|c u].
    { injection Hres as <-. exists []. split; reflexivity. }
    destruct (llm st) as [l|]; [|discriminate].
    destruct (llama_call l _ (ext st)). discriminate.
  - rewrite Hr in Hres.
    destruct (snd (llama_call l (chat_args u) (ext st))) as [f|c];
      [discriminate|].
    destruct (choices c) as [|ch rest]; [discriminate|].
    injection Hres as <-. exists (strip (text ch)).
    split; [reflexivity | apply strip_idempotent].
Qed.

End Engine.

(** ** Start-up, the banner and the page *)

Section Startup.

Context {world : Type} {E : External world}.

Implicit Types (st : State world) (request : Request).

Lemma module_body_quiet st :
  generations (trace (module_body st)) = [] /\
  serving (trace (module_body st)) = [].
Proof.
  rewrite module_body_run.
  destruct (os_path_exists (ext st) MODEL_PATH); [|split; reflexivity].
  cbn zeta. destruct (llama_init _ (ext st)) as [w [f|]]; split; reflexivity.
Qed.

(** X9.  A start that succeeds puts [sys.stdout] and [sys.stderr] back:
    after the module body both streams are what they were before it, [llm]
    is bound to the new session, and the only event is the load. *)
Theorem startup_restores_streams st w :
  os_path_exists (ext st) MODEL_PATH = true ->
  llama_init (session_args (os_cpu_count (ext st))) (ext st) = (w, None) ->
  let r := module_body st in
  result r = inr tt /\
  trace r = [Load (session_args (os_cpu_count (ext st)))] /\
  sys_stdout (final r) = sys_stdout st /\
  sys_stderr (final r) = sys_stderr st /\
  llm (final r) = Some (session_args (os_cpu_count (ext st))) /\
  ext (final r) = w.
Proof.
  intros Hfound Hinit r. subst r.
  rewrite module_body_run, Hfound. cbn zeta. rewrite Hinit.
  repeat split; reflexivity.
Qed.

(** X10.  A weights file that is there but does not load stops the
    process with the loader's exception, and the two streams are not put
    back: both stay bound to the [StringIO] buffers, [llm] stays as it
    was, and nothing is printed or served. *)
Theorem failed_load_leaves_streams_redirected name incoming st w f :
  os_path_exists (ext st) MODEL_PATH = true ->
  llama_init (session_args (os_cpu_count (ext st))) (ext st) = (w, Some f) ->
  main name incoming st =
    mkRun [Load (session_args (os_cpu_count (ext st)))]
      (mkState StringIO StringIO (llm st) w) (inl (EngineError f)).
Proof.
  intros Hfound Hinit.
  rewrite main_run, module_body_run, Hfound. cbn zeta. rewrite Hinit.
  reflexivity.
Qed.

(** X11.  Imported under another name than "__main__", the module sets
    itself up and stops: the run is the module body's, nothing is
    printed, no server is started, and no arriving request is answered
    or reaches the engine. *)
Theorem import_does_not_serve name incoming st :
  name <> lit "__main__" ->
  let r := main name incoming st in
  trace r = trace (module_body st) /\
  final r = final (module_body st) /\
  serving (trace r) = [] /\
  generations (trace r) = [] /\
  (forall resps, result r = inr resps -> resps = []).
Proof.
  intros Hname r. subst r. rewrite main_run.
  destruct (module_body_quiet st) as [Hgen Hserv].
  destruct (result (module_body st)) as [e|[]]; cbn [trace final result].
  { repeat split; try assumption. discriminate. }
  cbn zeta. rewrite bool_decide_eq_false_2 by exact Hname.
  cbn [trace final result].
  repeat split; try assumption. congruence.
Qed.

(** X12.  Run as a script with a model that loads, the process loads the
    session, prints the banner on the stream [sys.stdout] was bound to
    before the start (not on the buffer), starts one server on
    127.0.0.1:8080 in debug mode, and answers every request that
    arrives with exactly one response. *)
Theorem script_serves_on_localhost incoming st w :
  os_path_exists (ext st) MODEL_PATH = true ->
  llama_init (session_args (os_cpu_count (ext st))) (ext st) = (w, None) ->
  let args := session_args (os_cpu_count (ext st)) in
  let st1 := mkState (sys_stdout st) (sys_stderr st) (Some args) w in
  let r := main (lit "__main__") incoming st in
  trace r =
    Load args :: Print (sys_stdout st) banner
    :: Serve (lit "127.0.0.1") 8080 true :: trace (serve incoming st1) /\
  serving (trace r) = [(lit "127.0.0.1", 8080)] /\
  exists resps, result r = inr resps /\ length resps = length incoming.
Proof.
  intros Hfound Hinit args st1 r. subst r.
  rewrite main_run, module_body_run, Hfound. cbn zeta.
  rewrite Hinit. cbn [trace final result]. fold args. fold st1.
  destruct (serve_frame incoming st1)
    as (_ & _ & _ & Hserv & _ & resps & Hres & Hlen).
  rewrite bool_decide_eq_true_2 by reflexivity.
  cbn [trace final result app serving]. rewrite Hserv.
  split; [reflexivity|]. split; [reflexivity|].
  exists resps. split; assumption.
Qed.

(** X13.  GET / renders [chat.html] and nothing else: with the template
    the answer is the page with status 200, without it the 500 page; in
    both cases no event is emitted and the state is untouched. *)
Theorem index_serves_the_page request st :
  req_method request = GET -> req_path request = lit "/" ->
  full_dispatch_request request st =
    mkRun [] st
      (inr match render_template (lit "chat.html") (ext st) with
           | Some page => mkResponse 200 (Html page)
           | None => mkResponse 500 ErrorPage
           end).
Proof.
  intros Hmeth Hp. unfold full_dispatch_request, view_for.
  rewrite Hmeth, Hp. cbn [bool_decide]. unfold index.
  rewrite bool_decide_eq_true_2 by reflexivity. run_py.
  destruct (render_template (lit "chat.html") (ext st)); reflexivity.
Qed.

End Startup.

(** ** Concrete runs for the further properties *)


Lemma engine_prompt_is_never_blank_witness :
  let E := Stub.external true (Stub.says "Hi there") in
  let request := Stub.post (Stub.message "  Hello ") in
  let l := mkLlama (lit "/srv/pages/models/llama-2-7b-chat.Q4_K_M.gguf")
             2048 float_0_7 false (Some 4) in
  let a := chat_args (lit "Hello") in
  In (Generate l a) (trace (chat request Stub.ready)) /\
  exists u,
    prompt a = lit "[INST] " ++ u ++ lit " [/INST]" /\
    u <> [] /\ blank u = false /\ strip u = u.
Proof.
  intros E request l a.
  assert (Hin : In (Generate l a) (trace (chat request Stub.ready)))
    by (vm_compute; left; reflexivity).
  split; [exact Hin|].
  exact (engine_prompt_is_never_blank (E := E) request Stub.ready l a Hin).
Defined.

(** "  Hello" followed by a space and a line feed, against "Hello". *)
Lemma chat_ignores_surrounding_whitespace_witness :
  let E := Stub.external true (Stub.says "Hi there") in
  let padded := (lit "  " ++ lit "Hello" ++ [32; 10])%N in
  (blank (lit "  ") = true /\ blank [32; 10]%N = true) /\
  chat (Stub.post (VDict {[ lit "message" := VStr padded ]})) Stub.ready =
    chat (Stub.post (Stub.message "Hello")) Stub.ready.
Proof.
  intros E padded. split; [split; reflexivity|].
  apply (chat_ignores_surrounding_whitespace (E := E)
           (Stub.post (Stub.message "Hello"))
           (Stub.post (VDict {[ lit "message" := VStr padded ]}))
           {[ lit "message" := VStr (lit "Hello") ]}
           {[ lit "message" := VStr padded ]}
           (lit "  ") (lit "Hello") [32; 10]%N Stub.ready);
    vm_compute; reflexivity.
Defined.

(** A body with a second key. *)
Lemma chat_reads_only_message_witness :
  let E := Stub.external true (Stub.says "Hi there") in
  let d : gmap str value := {[ lit "message" := VStr (lit "Hello") ]} in
  let d' : gmap str value := <[ lit "user" := VStr (lit "bob") ]> d in
  d !! lit "message" = d' !! lit "message" /\
  chat (Stub.post (VDict d)) Stub.ready =
    chat (Stub.post (VDict d')) Stub.ready.
Proof.
  intros E d d'.
  assert (Hd : d !! lit "message" = d' !! lit "message")
    by (vm_compute; reflexivity).
  split; [exact Hd|].
  apply (chat_reads_only_message (E := E) (Stub.post (VDict d))
           (Stub.post (VDict d')) d d' Stub.ready);
    [reflexivity | reflexivity | exact Hd].
Defined.

(** The same request before and after seven other calls. *)
Lemma chat_calls_independent_of_history_witness :
  let E := Stub.external true (Stub.says "Hi there") in
  let request := Stub.post (Stub.message "Hello") in
  let later := with_ext Stub.ready 7%nat in
  llm Stub.ready = llm later /\
  trace (chat request Stub.ready) = trace (chat request later).
Proof.
  intros E request later. split; [reflexivity|].
  apply (chat_calls_independent_of_history (E := E) request Stub.ready later).
  reflexivity.
Defined.

(** An engine that answers without any choice. *)
Lemma chat_empty_choices_raises_witness :
  let E := Broken.external in
  let request := Stub.post (Stub.message "Hello") in
  let l := mkLlama (lit "/srv/pages/models/llama-2-7b-chat.Q4_K_M.gguf")
             2048 float_0_7 false (Some 4) in
  strip (lit "Hello") <> [] /\
  full_dispatch_request request Stub.ready =
    mkRun [Generate l (chat_args (lit "Hello"))] (with_ext Stub.ready 1%nat)
      (inr (mkResponse 500 ErrorPage)).
Proof.
  intros E request l. split; [discriminate|].
  apply (chat_empty_choices_raises (E := E) request
           {[ lit "message" := VStr (lit "Hello") ]} (lit "Hello") l 1%nat
           (mkCompletion []) Stub.ready);
    try (vm_compute; reflexivity).
  discriminate.
Defined.

(** A body sent without a JSON content type. *)
Lemma chat_body_error_passes_through_witness :
  let E := Stub.external true Stub.fails in
  let request := mkRequest POST (lit "/chat") (inl (HTTPException 415)) in
  get_json request = inl (HTTPException 415) /\
  full_dispatch_request request Stub.ready =
    mkRun [] Stub.ready (inr (mkResponse 415 ErrorPage)).
Proof.
  intros E request. split; [reflexivity|].
  apply (chat_body_error_passes_through (E := E) request (HTTPException 415)
           Stub.ready);
    reflexivity.
Defined.

Lemma chat_response_is_trimmed_reply_witness :
  let E := Stub.external true (Stub.says "  4  ") in
  let request := Stub.post (Stub.message "What is 2+2?") in
  let resp := mkResponse 200 (reply_body (lit "4")) in
  result (chat request Stub.ready) = inr resp /\
  exists r, resp = mkResponse 200 (reply_body r) /\ strip r = r.
Proof.
  intros E request resp.
  assert (Hres : result (chat request Stub.ready) = inr resp)
    by (vm_compute; reflexivity).
  split; [exact Hres|].
  exact (chat_response_is_trimmed_reply (E := E) request Stub.ready resp Hres).
Defined.

(** A start from the process's own two streams. *)
Lemma startup_restores_streams_witness :
  let E := Stub.external true (Stub.says "ok") in
  os_path_exists (ext Stub.boot) MODEL_PATH = true /\
  sys_stdout (final (module_body Stub.boot)) = ProcessStdout /\
  sys_stderr (final (module_body Stub.boot)) = ProcessStderr.
Proof.
  intros E.
  assert (Hfound : os_path_exists (ext Stub.boot) MODEL_PATH = true)
    by reflexivity.
  split; [exact Hfound|].
  destruct (startup_restores_streams (E := E) Stub.boot 0%nat Hfound eq_refl)
    as (_ & _ & Hout & Herr & _).
  split; [exact Hout | exact Herr].
Defined.

(** A weights file that does not load, with a request waiting. *)
Lemma failed_load_leaves_streams_redirected_witness :
  let E := Broken.external in
  let incoming := [Stub.post (Stub.message "hi")] in
  os_path_exists (ext Stub.boot) MODEL_PATH = true /\
  main (lit "__main__") incoming Stub.boot =
    mkRun [Load (session_args None)]
      (mkState StringIO StringIO None 0%nat)
      (inl (EngineError Broken.load_fault)).
Proof.
  intros E incoming. split; [reflexivity|].
  apply (failed_load_leaves_streams_redirected (E := E) (lit "__main__")
           incoming Stub.boot 0%nat Broken.load_fault);
    reflexivity.
Defined.

(** The module imported as [app]. *)
Lemma import_does_not_serve_witness :
  let E := Stub.external true (Stub.says "ok") in
  let r := main (lit "app") [Stub.post (Stub.message "hi")] Stub.boot in
  lit "app" <> lit "__main__" /\
  serving (trace r) = [] /\ generations (trace r) = [].
Proof.
  intros E r.
  assert (Hname : lit "app" <> lit "__main__") by discriminate.
  split; [exact Hname|].
  destruct (import_does_not_serve (E := E) (lit "app")
              [Stub.post (Stub.message "hi")] Stub.boot Hname)
    as (_ & _ & Hserv & Hgen & _).
  split; [exact Hserv | exact Hgen].
Defined.

(** The script with two requests arriving. *)
Lemma script_serves_on_localhost_witness :
  let E := Stub.external true (Stub.says "ok") in
  let incoming := [Stub.post (Stub.message "Hello"); Stub.post VNone] in
  let r := main (lit "__main__") incoming Stub.boot in
  os_path_exists (ext Stub.boot) MODEL_PATH = true /\
  serving (trace r) = [(lit "127.0.0.1", 8080)] /\
  exists resps, result r = inr resps /\ length resps = 2%nat.
Proof.
  intros E incoming r.
  assert (Hfound : os_path_exists (ext Stub.boot) MODEL_PATH = true)
    by reflexivity.
  split; [exact Hfound|].
  destruct (script_serves_on_localhost (E := E) incoming Stub.boot 0%nat
              Hfound eq_refl)
    as (_ & Hserv & Hresps).
  split; [exact Hserv | exact Hresps].
Defined.

(** GET / with the template in place. *)
Lemma index_serves_the_page_witness :
  let E := Stub.external true Stub.fails in
  let request := mkRequest GET (lit "/") (inr VNone) in
  (req_method request = GET /\ req_path request = lit "/") /\
  full_dispatch_request request Stub.ready =
    mkRun [] Stub.ready (inr (mkResponse 200 (Html (lit "<html></html>")))).
Proof.
  intros E request. split; [split; reflexivity|].
  apply (index_serves_the_page (E := E) request Stub.ready); reflexivity.
Defined.
